(** * Text-to-SQL pipeline: a shallow embedding of
      [examples/pipelines/rag/text_to_sql_pipeline.py]

    The file is glue code: a [Pipeline] object holds configuration, and its
    methods call out to SQLAlchemy ([create_engine]) and to LlamaIndex
    ([SQLDatabase], [Ollama], [PromptTemplate], [NLSQLTableQueryEngine]).
    The embedding keeps the two things the source has:

    - the instance attributes, as a record threaded through every method;
    - the calls into the libraries, as the nodes of a small program monad.
      What a library answers is not decided here: a run takes a [handler]
      standing for the libraries and the services behind them, and records
      every call together with its arguments.

    Python passes [self.tables] to the libraries by reference; they are
    taken not to write to it (LlamaIndex copies the names into a set), so
    the list is a value here.  The two [async] hooks are modelled by their
    bodies, which is what the server runs when it awaits them. *)

From stdpp Require Import gmap strings list.
From Stdlib Require Import Ascii String QArith.

Local Close Scope Q_scope.
Local Open Scope string_scope.

(** ** Python values *)

(** [os.environ], and the [dict]s a request carries. *)
Abbreviation dict := (gmap string string).

(** Exceptions.  [KeyError] is what a failed subscript of [os.environ]
    raises; whatever a library raises is opaque to this code. *)
Inductive exn : Type :=
| KeyError (key : string)
| LibraryError (what : string).

(** Objects made by the libraries are known by their identity only. *)
Inductive pyclass : Type :=
| EngineC | SQLDatabaseC | OllamaC | PromptTemplateC
| QueryEngineC | ResponseC | GeneratorC.

Record obj (c : pyclass) : Type := Obj { obj_id : N }.
Arguments Obj {c} _.
Arguments obj_id {c} _.

Abbreviation Engine := (obj EngineC).
Abbreviation SQLDatabaseT := (obj SQLDatabaseC).
Abbreviation OllamaT := (obj OllamaC).
Abbreviation PromptTemplateT := (obj PromptTemplateC).
Abbreviation QueryEngineT := (obj QueryEngineC).
Abbreviation ResponseT := (obj ResponseC).
Abbreviation Generator := (obj GeneratorC).

(** ** The library surface

    One constructor per library entry point the source can reach, with the
    keyword arguments of the call site.  [dispose] is SQLAlchemy's way of
    closing an engine; no method below issues it.  [request_timeout] is the
    float literal [180.0], which denotes the rational 180 exactly.
    [response_gen] is the attribute read on the response object. *)
Inductive extcall : Type :=
| create_engine (url : string)
| dispose (engine : Engine)
| SQLDatabase (engine : option Engine) (include_tables : list string)
| Ollama (model base_url : string) (request_timeout : Q) (context_window : Z)
| PromptTemplate (template : string)
| NLSQLTableQueryEngine (sql_database : SQLDatabaseT) (tables : list string)
    (llm : OllamaT) (embed_model : string)
    (text_to_sql_prompt : PromptTemplateT) (streaming : bool)
| query (query_engine : QueryEngineT) (str_or_query_bundle : string)
| response_gen (response : ResponseT).

Definition result_of (c : extcall) : Type :=
  match c with
  | create_engine _ => Engine
  | dispose _ => unit
  | SQLDatabase _ _ => SQLDatabaseT
  | Ollama _ _ _ _ => OllamaT
  | PromptTemplate _ => PromptTemplateT
  | NLSQLTableQueryEngine _ _ _ _ _ _ => QueryEngineT
  | query _ _ => ResponseT
  | response_gen _ => Generator
  end.

Definition is_Ollama (c : extcall) : bool :=
  match c with Ollama _ _ _ _ => true | _ => false end.
Definition is_dispose (c : extcall) : bool :=
  match c with dispose _ => true | _ => false end.

(** ** The instance *)

Record Pipeline : Type := mkPipeline {
  PG_HOST : string;
  PG_PORT : string;
  PG_USER : string;
  PG_PASSWORD : string;
  PG_DB : string;
  ollama_host : string;
  model : string;
  engine : option Engine;
  nlsql_response : string;
  tables : list string
}.

(** [self.engine = e] *)
Definition set_engine (e : option Engine) (self : Pipeline) : Pipeline :=
  {| PG_HOST := PG_HOST self; PG_PORT := PG_PORT self; PG_USER := PG_USER self;
     PG_PASSWORD := PG_PASSWORD self; PG_DB := PG_DB self;
     ollama_host := ollama_host self; model := model self;
     engine := e;
     nlsql_response := nlsql_response self; tables := tables self |}.

(** ** Programs: attribute access and library calls *)

Inductive prog (A : Type) : Type :=
| Ret (a : A)
| GetSelf (k : Pipeline -> prog A)
| PutSelf (self : Pipeline) (k : prog A)
| Call (c : extcall) (k : result_of c -> prog A).
Arguments Ret {A} _.
Arguments GetSelf {A} _.
Arguments PutSelf {A} _ _.
Arguments Call {A} _ _.

Fixpoint bind {A B : Type} (m : prog A) (f : A -> prog B) : prog B :=
  match m with
  | Ret a => f a
  | GetSelf k => GetSelf (fun self => bind (k self) f)
  | PutSelf self k => PutSelf self (bind k f)
  | Call c k => Call c (fun r => bind (k r) f)
  end.

#[global] Instance prog_ret : MRet prog := fun _ a => Ret a.
#[global] Instance prog_bind : MBind prog := fun _ _ f m => bind m f.

Definition get_self : prog Pipeline := GetSelf Ret.
Definition modify_self (f : Pipeline -> Pipeline) : prog unit :=
  GetSelf (fun self => PutSelf (f self) (Ret tt)).
Definition call (c : extcall) : prog (result_of c) := Call c Ret.

(** Failure of a subscript or of a constructor unwinds: the source has no
    [try]. *)
#[global] Instance exn_ret : MRet (sum exn) := fun _ a => inr a.
#[global] Instance exn_bind : MBind (sum exn) := fun _ _ f m =>
  match m with inl e => inl e | inr a => f a end.

(** [os.environ[key]] *)
Definition environ_get (environ : dict) (key : string) : exn + string :=
  match environ !! key with
  | Some v => inr v
  | None => inl (KeyError key)
  end.

(** ** The class [Pipeline] *)

Definition __init__ (environ : dict) : exn + Pipeline :=
  host ← environ_get environ "PG_HOST";
  port ← environ_get environ "PG_PORT";
  user ← environ_get environ "PG_USER";
  password ← environ_get environ "PG_PASSWORD";
  db ← environ_get environ "PG_DB";
  mret {| PG_HOST := host; PG_PORT := port; PG_USER := user;
          PG_PASSWORD := password; PG_DB := db;
          ollama_host := "http://host.docker.internal:11434";
          model := "phi3:medium-128k";
          engine := None;
          nlsql_response := "";
          tables := ["db_table"] |}.

(** The f-string of [init_db_connection]; the attributes are [str]s, so
    formatting them is the identity. *)
Definition db_url (self : Pipeline) : string :=
  "postgresql+psycopg2://" +:+ PG_USER self +:+ ":" +:+ PG_PASSWORD self
    +:+ "@" +:+ PG_HOST self +:+ ":" +:+ PG_PORT self +:+ "/" +:+ PG_DB self.

Definition init_db_connection : prog (option Engine) :=
  self ← get_self;
  e ← call (create_engine (db_url self));
  _ ← modify_self (set_engine (Some e));
  self ← get_self;
  mret (engine self).

(** [async def]: the body is what the server runs when it awaits the
    coroutine. *)
Definition on_startup : prog unit :=
  _ ← init_db_connection;
  mret tt.

Definition on_shutdown : prog unit :=
  mret tt.

Definition nl : string := String (Ascii.ascii_of_nat 10) EmptyString.

(** The triple-quoted literal of [pipe], line by line as in the source
    (trailing blanks included); the lines are joined by newlines. *)
Definition text_to_sql_prompt : string :=
  String.concat nl [
    "";
    "        Given an input question, first create a syntactically correct {dialect} query to run, then look at the results of the query and return the answer. ";
    "        You can order the results by a relevant column to return the most interesting examples in the database.";
    "        Unless the user specifies in the question a specific number of examples to obtain, query for at most 5 results using the LIMIT clause as per Postgres. You can order the results to return the most informative data in the database.";
    "        Never query for all the columns from a specific table, only ask for a few relevant columns given the question.";
    "        You should use DISTINCT statements and avoid returning duplicates wherever possible.";
    "        Pay attention to use only the column names that you can see in the schema description. Be careful to not query for columns that do not exist. Pay attention to which column is in which table. Also, qualify column names with the table name when needed. You are required to use the following format, each taking one line:";
    "";
    "        Question: Question here";
    "        SQLQuery: SQL Query to run";
    "        SQLResult: Result of the SQLQuery";
    "        Answer: Final answer here";
    "";
    "        Only use tables listed below.";
    "        {schema}";
    "";
    "        Question: {query_str}";
    "        SQLQuery: ";
    "        "
  ].

Definition pipe (user_message model_id : string) (messages : list dict)
    (body : dict) : prog Generator :=
  self ← get_self;
  sql_database ← call (SQLDatabase (engine self) (tables self));
  self ← get_self;
  llm ← call (Ollama (model self) (ollama_host self) 180 30000);
  text_to_sql_template ← call (PromptTemplate text_to_sql_prompt);
  self ← get_self;
  query_engine ← call (NLSQLTableQueryEngine sql_database (tables self) llm
                         "local" text_to_sql_template true);
  response ← call (query query_engine user_message);
  call (response_gen response).

(** ** Running a method against the libraries *)

(** What one method call leaves behind: the instance, the outside world,
    the library calls in the order they were issued, and either the
    exception that unwound or the returned value. *)
Record outcome (W A : Type) : Type := mkOutcome {
  self_after : Pipeline;
  world_after : W;
  calls : list extcall;
  result : exn + A
}.
Arguments mkOutcome {W A} _ _ _ _.
Arguments self_after {W A} _.
Arguments world_after {W A} _.
Arguments calls {W A} _.
Arguments result {W A} _.

Definition logged {W A : Type} (c : extcall) (o : outcome W A) : outcome W A :=
  mkOutcome (self_after o) (world_after o) (c :: calls o) (result o).

(** The libraries: each call moves the outside world and either raises or
    returns an object of the call's class. *)
Definition handler (W : Type) : Type :=
  forall c : extcall, W -> W * (exn + result_of c).

Fixpoint run {W A : Type} (h : handler W) (m : prog A) (self : Pipeline)
    (w : W) : outcome W A :=
  match m with
  | Ret a => mkOutcome self w [] (inr a)
  | GetSelf k => run h (k self) self w
  | PutSelf self' k => run h k self' w
  | Call c k =>
      match h c w with
      | (w', inl e) => mkOutcome self w' [c] (inl e)
      | (w', inr r) => logged c (run h (k r) self w')
      end
  end.

(** ** The serving life cycle *)

Record request : Type := mkRequest {
  user_message : string;
  model_id : string;
  messages : list dict;
  body : dict
}.

Definition pipe_of (r : request) : prog Generator :=
  pipe (user_message r) (model_id r) (messages r) (body r).

(** The ways the hosting server touches an instance once it is built. *)
Inductive invocation : Type :=
| InitDbConnection
| OnStartup
| OnShutdown
| Pipe (r : request).

Definition invoke {W : Type} (h : handler W) (i : invocation)
    (self : Pipeline) (w : W) : Pipeline * W * list extcall :=
  match i with
  | InitDbConnection =>
      let o := run h init_db_connection self w in
      (self_after o, world_after o, calls o)
  | OnStartup =>
      let o := run h on_startup self w in
      (self_after o, world_after o, calls o)
  | OnShutdown =>
      let o := run h on_shutdown self w in
      (self_after o, world_after o, calls o)
  | Pipe r =>
      let o := run h (pipe_of r) self w in
      (self_after o, world_after o, calls o)
  end.

(** A session: invocations one after the other on the same instance, an
    exception of one not stopping the next (the server catches it). *)
Fixpoint session {W : Type} (h : handler W) (todo : list invocation)
    (self : Pipeline) (w : W) : Pipeline * W * list extcall :=
  match todo with
  | [] => (self, w, [])
  | i :: todo' =>
      let '(self1, w1, cs1) := invoke h i self w in
      let '(self2, w2, cs2) := session h todo' self1 w1 in
      (self2, w2, (cs1 ++ cs2)%list)
  end.

(** Instances the server can hold: built by [__init__] from some
    environment, then driven through any session. *)
Inductive reachable {W : Type} (h : handler W) : Pipeline -> Prop :=
| reachable_init environ self :
    __init__ environ = inr self -> reachable h self
| reachable_invoke i self w :
    reachable h self -> reachable h (invoke h i self w).1.1.

(** After startup only requests and the shutdown hook arrive. *)
Definition serving (i : invocation) : bool :=
  match i with
  | Pipe _ | OnShutdown => true
  | InitDbConnection | OnStartup => false
  end.

(** ** Reading format strings and prompts *)

(** The replacement fields of a format string, in order: the names between
    a [{] and the next [}]. *)
Fixpoint fields_from (s : string) (cur : option string) : list string :=
  match s with
  | EmptyString => []
  | String c s' =>
      match cur with
      | None =>
          if Ascii.eqb c "{"%char then fields_from s' (Some "")
          else fields_from s' None
      | Some name =>
          if Ascii.eqb c "}"%char then name :: fields_from s' None
          else fields_from s' (Some (name +:+ String c EmptyString))
      end
  end.

Definition template_vars (s : string) : list string := fields_from s None.

(** [sub in s] *)
Fixpoint contains (sub s : string) : bool :=
  String.prefix sub s ||
  match s with
  | EmptyString => false
  | String _ s' => contains sub s'
  end.

(** ** The calls of one request, in source order *)

(** Given the objects the libraries hand back, the calls [pipe] issues
    when nothing raises. *)
Definition pipe_script (self : Pipeline) (user_message : string)
    (db : SQLDatabaseT) (llm : OllamaT) (t : PromptTemplateT)
    (qe : QueryEngineT) (r : ResponseT) : list extcall :=
  [ SQLDatabase (engine self) (tables self);
    Ollama (model self) (ollama_host self) 180 30000;
    PromptTemplate text_to_sql_prompt;
    NLSQLTableQueryEngine db (tables self) llm "local" t true;
    query qe user_message;
    response_gen r ].

(** A handler raised [e] in answer to [c]. *)
Definition raised_by {W : Type} (h : handler W) (c : extcall) (e : exn) : Prop :=
  exists w w', h c w = (w', inl e).

(** The variables [__init__] subscripts [os.environ] with, in order. *)
Definition required_vars : list string :=
  ["PG_HOST"; "PG_PORT"; "PG_USER"; "PG_PASSWORD"; "PG_DB"].

(** What the hosting server does before it accepts a request: build the
    instance, then await [on_startup]. *)
Definition startup {W : Type} (h : handler W) (environ : dict) (w : W)
    : exn + outcome W unit :=
  self ← __init__ environ;
  mret (run h on_startup self w).

(** The attributes [__init__] sets from literals. *)
Definition configured (self : Pipeline) : Prop :=
  ollama_host self = "http://host.docker.internal:11434" /\
  model self = "phi3:medium-128k" /\
  nlsql_response self = "" /\
  tables self = ["db_table"].

(** ** Stand-ins for the libraries, for evaluating the methods *)

(** The outside world is a counter; every object made gets the next
    identity. *)
Definition fresh {c : pyclass} (w : N) : N * (exn + obj c) :=
  (N.succ w, inr (Obj w)).

(** Libraries that never raise. *)
Definition lenient_libs : handler N := fun c w =>
  match c as c' return N * (exn + result_of c') with
  | create_engine _ => fresh w
  | dispose _ => (w, inr tt)
  | SQLDatabase _ _ => fresh w
  | Ollama _ _ _ _ => fresh w
  | PromptTemplate _ => fresh w
  | NLSQLTableQueryEngine _ _ _ _ _ _ => fresh w
  | query _ _ => fresh w
  | response_gen _ => fresh w
  end.

(** Libraries whose schema view refuses a missing engine, as SQLAlchemy's
    [inspect] does for [None]. *)
Definition strict_libs : handler N := fun c w =>
  match c as c' return N * (exn + result_of c') with
  | SQLDatabase None _ => (w, inl (LibraryError "NoInspectionAvailable"))
  | c' => lenient_libs c' w
  end.

(** Libraries whose database is down: the schema view always raises. *)
Definition offline_libs : handler N := fun c w =>
  match c as c' return N * (exn + result_of c') with
  | SQLDatabase _ _ => (w, inl (LibraryError "OperationalError"))
  | c' => lenient_libs c' w
  end.

Definition sample_environ : dict :=
  list_to_map [ ("PG_HOST", "db.internal"); ("PG_PORT", "5432");
                ("PG_USER", "reader"); ("PG_PASSWORD", "s3cret");
                ("PG_DB", "sales") ].

Definition sample_self : Pipeline :=
  {| PG_HOST := "db.internal"; PG_PORT := "5432"; PG_USER := "reader";
     PG_PASSWORD := "s3cret"; PG_DB := "sales";
     ollama_host := "http://host.docker.internal:11434";
     model := "phi3:medium-128k";
     engine := None;
     nlsql_response := "";
     tables := ["db_table"] |}.

(** The sample instance once the server has awaited [on_startup]. *)
Definition sample_started : Pipeline :=
  (invoke lenient_libs OnStartup sample_self 0%N).1.1.

Definition sample_request : request :=
  {| user_message := "How many rows does other_table have?";
     model_id := "gpt-4";
     messages := [ {[ "role" := "user" ]} ];
     body := ∅ |}.

(** ** Reading the connection URL *)

(** [c in s], for one character. *)
Fixpoint has_char (c : ascii) (s : string) : bool :=
  match s with
  | EmptyString => false
  | String c' s' => Ascii.eqb c c' || has_char c s'
  end.

(** The f-string of [init_db_connection] quotes nothing.  An instance is
    delimiter-free when no value contains the character that ends it in
    the URL. *)
Definition delimiter_free (self : Pipeline) : Prop :=
  has_char ":" (PG_USER self) = false /\
  has_char "@" (PG_PASSWORD self) = false /\
  has_char ":" (PG_HOST self) = false /\
  has_char "/" (PG_PORT self) = false.

(** [os.environ] lacks [key]. *)
Definition absent (environ : dict) (key : string) : Prop :=
  environ !! key = None.

(** Libraries without a usable driver: [create_engine] raises. *)
Definition no_driver_libs : handler N := fun c w =>
  match c as c' return N * (exn + result_of c') with
  | create_engine _ => (w, inl (LibraryError "NoSuchModuleError"))
  | c' => lenient_libs c' w
  end.

(** An environment with more in it than the five variables. *)
Definition crowded_environ : dict :=
  <[ "HOME" := "/root" ]> (<[ "OLLAMA_HOST" := "http://elsewhere:1" ]>
                             sample_environ).

(** A call whose configuration arguments are the attributes of [self] and
    the literals of the source; [dispose] is no such call. *)
Definition configured_call (self : Pipeline) (c : extcall) : Prop :=
  match c with
  | create_engine url => url = db_url self
  | dispose _ => False
  | SQLDatabase _ include_tables => include_tables = tables self
  | Ollama m base_url timeout window =>
      m = model self /\ base_url = ollama_host self /\
      timeout = 180%Q /\ window = 30000%Z
  | PromptTemplate template => template = text_to_sql_prompt
  | NLSQLTableQueryEngine _ ts _ embed_model _ streaming =>
      ts = tables self /\ embed_model = "local" /\ streaming = true
  | query _ _ | response_gen _ => True
  end.

(** * Properties *)

(** ** The program monad *)

Ltac unfold_prog :=
  unfold on_startup, on_shutdown, init_db_connection, pipe_of, pipe,
    get_self, modify_self, call, mbind, mret, prog_bind, prog_ret; simpl.

(** Case split on what the libraries answer to the next call. *)
Ltac answer h :=
  match goal with
  | |- context [h ?c ?w] =>
      let w' := fresh "w" in
      let e := fresh "e" in
      let r := fresh "r" in
      let Hh := fresh "Hh" in
      destruct (h c w) as [w' [e | r]] eqn:Hh; simpl
  end.

(** Membership in a list literal. *)
Ltac in_list :=
  first [apply list_elem_of_here | apply list_elem_of_further; in_list].

Section Runs.
Context {W : Type} (h : handler W).

Lemma run_bind {A B : Type} (m : prog A) (f : A -> prog B) self w :
  run h (m ≫= f) self w =
    let o := run h m self w in
    match result o with
    | inl e => mkOutcome (self_after o) (world_after o) (calls o) (inl e)
    | inr a =>
        let o' := run h (f a) (self_after o) (world_after o) in
        mkOutcome (self_after o') (world_after o')
          (calls o ++ calls o')%list (result o')
    end.
Proof.
  unfold mbind, prog_bind. revert self w.
  induction m as [a | k IH | self' k IH | c k IH]; intros self w; simpl.
  - by destruct (run h (f a) self w).
  - apply IH.
  - apply IH.
  - destruct (h c w) as [w' [e | r]]; simpl; [done |].
    rewrite IH. simpl. by destruct (result (run h (k r) self w')).
Qed.

(** A method that returns has raised nothing, and one that raised stopped
    at its last call. *)
Lemma run_raises_from_library {A : Type} (m : prog A) self w e :
  result (run h m self w) = inl e ->
  exists c, last (calls (run h m self w)) = Some c /\ raised_by h c e.
Proof.
  revert self w.
  induction m as [a | k IH | self' k IH | c k IH]; intros self w; simpl.
  - discriminate.
  - apply IH.
  - apply IH.
  - destruct (h c w) as [w' [e' | r]] eqn:Hh; simpl.
    + intros [= ->]. exists c. split; [done |]. by exists w, w'.
    + intros He. destruct (IH r self w' He) as (c' & Hlast & Hr).
      exists c'. split; [| done].
      destruct (calls (run h (k r) self w')); [done |].
      by rewrite last_cons, Hlast.
Qed.

(** No method disposes of an engine: none of them has the call. *)
Lemma init_db_connection_calls self w :
  calls (run h init_db_connection self w) = [create_engine (db_url self)].
Proof. unfold_prog. by answer h. Qed.

Lemma init_db_connection_frame self w :
  set_engine None (self_after (run h init_db_connection self w))
    = set_engine None self.
Proof. unfold_prog. by answer h. Qed.

Lemma pipe_frame um mid ms b self w :
  self_after (run h (pipe um mid ms b) self w) = self.
Proof. unfold_prog. by repeat answer h. Qed.

(** The shape of every run of [pipe]: the script, cut where a library
    raised. *)
Lemma pipe_outcome um mid ms b self w :
  let o := run h (pipe um mid ms b) self w in
  exists db llm t qe r,
    let s := pipe_script self um db llm t qe r in
    (exists g, calls o = s /\ result o = inr g) \/
    (exists n c e, calls o = (take n s ++ [c])%list /\ s !! n = Some c /\
                   result o = inl e /\ raised_by h c e).
Proof.
  pose (o0 := @Obj SQLDatabaseC 0). pose (o1 := @Obj OllamaC 0).
  pose (o2 := @Obj PromptTemplateC 0). pose (o3 := @Obj QueryEngineC 0).
  pose (o4 := @Obj ResponseC 0).
  unfold_prog.
  answer h.
  { exists o0, o1, o2, o3, o4. right. exists 0, (SQLDatabase (engine self) (tables self)), e.
    repeat split; try done. by eexists _, _. }
  answer h.
  { exists r, o1, o2, o3, o4. right. eexists 1, _, e.
    repeat split; try done. by eexists _, _. }
  answer h.
  { exists r, r0, o2, o3, o4. right. eexists 2, _, e.
    repeat split; try done. by eexists _, _. }
  answer h.
  { exists r, r0, r1, o3, o4. right. eexists 3, _, e.
    repeat split; try done. by eexists _, _. }
  answer h.
  { exists r, r0, r1, r2, o4. right. eexists 4, _, e.
    repeat split; try done. by eexists _, _. }
  answer h.
  { exists r, r0, r1, r2, r3. right. eexists 5, _, e.
    repeat split; try done. by eexists _, _. }
  exists r, r0, r1, r2, r3. left. by eexists.
Qed.
End Runs.

(** ** Construction *)

Lemma init_inr environ self :
  __init__ environ = inr self ->
  environ !! "PG_HOST" = Some (PG_HOST self) /\
  environ !! "PG_PORT" = Some (PG_PORT self) /\
  environ !! "PG_USER" = Some (PG_USER self) /\
  environ !! "PG_PASSWORD" = Some (PG_PASSWORD self) /\
  environ !! "PG_DB" = Some (PG_DB self) /\
  engine self = None /\ configured self.
Proof.
  unfold __init__, mbind, exn_bind, mret, exn_ret, environ_get, configured.
  destruct (environ !! "PG_HOST"); [| done].
  destruct (environ !! "PG_PORT"); [| done].
  destruct (environ !! "PG_USER"); [| done].
  destruct (environ !! "PG_PASSWORD"); [| done].
  destruct (environ !! "PG_DB"); [| done].
  by intros [= <-].
Qed.

(** ** What the methods leave alone *)

Section Frames.
Context {W : Type} (h : handler W).

Lemma on_shutdown_run self w :
  run h on_shutdown self w = mkOutcome self w [] (inr tt).
Proof. reflexivity. Qed.

Lemma on_startup_run self w :
  run h on_startup self w =
    let o := run h init_db_connection self w in
    mkOutcome (self_after o) (world_after o) (calls o)
      (match result o with inl e => inl e | inr _ => inr tt end).
Proof.
  unfold on_startup. rewrite run_bind. cbv zeta.
  destruct (result (run h init_db_connection self w)); [done |].
  cbn. by rewrite app_nil_r.
Qed.

(** Only [engine] is ever assigned after construction. *)
Lemma invoke_frame i self w :
  set_engine None (invoke h i self w).1.1 = set_engine None self.
Proof.
  destruct i as [| | | r]; unfold invoke; cbv zeta; cbn [fst].
  - apply init_db_connection_frame.
  - rewrite on_startup_run. apply init_db_connection_frame.
  - done.
  - unfold pipe_of. by rewrite pipe_frame.
Qed.

Lemma invoke_serving i self w :
  serving i = true -> (invoke h i self w).1.1 = self.
Proof.
  destruct i as [| | | r]; try done.
  intros _. unfold invoke, pipe_of; cbv zeta; cbn [fst]. apply pipe_frame.
Qed.

Lemma session_serving todo self w :
  forallb serving todo = true -> (session h todo self w).1.1 = self.
Proof.
  revert self w. induction todo as [| i todo IH]; intros self w; simpl; [done |].
  intros [Hi Htodo]%andb_prop.
  pose proof (invoke_serving i self w Hi) as Hself.
  destruct (invoke h i self w) as [[self1 w1] cs1]. simpl in Hself. subst self1.
  specialize (IH self w1 Htodo).
  destruct (session h todo self w1) as [[self2 w2] cs2]. done.
Qed.

Lemma configured_frame self self' :
  set_engine None self' = set_engine None self ->
  configured self -> configured self'.
Proof.
  unfold configured. destruct self, self'. simpl. intros [= -> -> -> -> -> -> -> -> ->]. done.
Qed.

Lemma reachable_configured self : reachable h self -> configured self.
Proof.
  induction 1 as [environ self Hinit | i self w _ IH].
  - by apply init_inr in Hinit as (_ & _ & _ & _ & _ & _ & ?).
  - eapply configured_frame; [apply invoke_frame | done].
Qed.

(** Every call of a run of [pipe] is a call of its script. *)
Lemma pipe_calls um mid ms b self w :
  let o := run h (pipe um mid ms b) self w in
  exists db llm t qe r,
    calls o `prefix_of` pipe_script self um db llm t qe r /\
    (exists rest, calls o = SQLDatabase (engine self) (tables self) :: rest) /\
    (forall g, result o = inr g -> calls o = pipe_script self um db llm t qe r).
Proof.
  cbv zeta. pose proof (pipe_outcome h um mid ms b self w) as Ho.
  cbv zeta in Ho. destruct Ho
    as (db & llm & t & qe & r & [(g & Hc & Hr) | (n & c & e & Hc & Hn & Hr & _)]);
    exists db, llm, t, qe, r.
  - rewrite Hc. split; [done |]. split; [by eexists | done].
  - rewrite <- (take_S_r _ _ _ Hn) in Hc. rewrite Hc. split.
    + apply prefix_take.
    + split; [by eexists | ]. rewrite Hr. done.
Qed.
End Frames.

(** ** Requests *)

Lemma sample_self_init : __init__ sample_environ = inr sample_self.
Proof. vm_compute. reflexivity. Defined.

Lemma sample_started_reachable : reachable lenient_libs sample_started.
Proof.
  unfold sample_started. apply reachable_invoke.
  exact (reachable_init _ sample_environ sample_self sample_self_init).
Defined.

(** C1. Whatever the question, the model id, the history and the body, the
    table list [pipe] hands to the schema view and to the query engine is
    [["db_table"]]: the schema view is always the first call and gets it,
    every call of either constructor gets it, a request that returns has
    made both calls, and the attribute is still that list afterwards. *)
Theorem pipe_table_allow_list_fixed {W : Type} (h : handler W) self
    (Hr : reachable h self) um mid ms b w :
  (exists rest, calls (run h (pipe um mid ms b) self w)
                  = SQLDatabase (engine self) ["db_table"] :: rest) /\
  (forall c, c ∈ calls (run h (pipe um mid ms b) self w) ->
     match c with
     | SQLDatabase _ include_tables => include_tables = ["db_table"]
     | NLSQLTableQueryEngine _ tables _ _ _ _ => tables = ["db_table"]
     | _ => True
     end) /\
  (forall g, result (run h (pipe um mid ms b) self w) = inr g ->
     exists db llm t,
       SQLDatabase (engine self) ["db_table"]
         ∈ calls (run h (pipe um mid ms b) self w) /\
       NLSQLTableQueryEngine db ["db_table"] llm "local" t true
         ∈ calls (run h (pipe um mid ms b) self w)) /\
  tables (self_after (run h (pipe um mid ms b) self w)) = ["db_table"].
Proof.
  destruct (reachable_configured h self Hr) as (_ & _ & _ & Htables).
  pose proof (pipe_calls h um mid ms b self w) as Hcalls. cbv zeta in Hcalls.
  destruct Hcalls as (db & llm & t & qe & r & Hpre & Hfirst & Hfull).
  rewrite Htables in *. repeat split.
  - exact Hfirst.
  - intros c Hc. eapply elem_of_prefix in Hc; [| exact Hpre].
    unfold pipe_script in Hc.
    repeat (apply elem_of_cons in Hc as [-> | Hc]; [by rewrite ?Htables |]).
    by apply elem_of_nil in Hc.
  - intros g Hg. rewrite (Hfull g Hg). exists db, llm, t.
    unfold pipe_script. rewrite Htables. split.
    + apply list_elem_of_here.
    + do 3 apply list_elem_of_further. apply list_elem_of_here.
  - by rewrite pipe_frame.
Qed.

Lemma pipe_table_allow_list_fixed_witness :
  reachable lenient_libs sample_started /\
  exists rest,
    calls (run lenient_libs
             (pipe "List the rows of other_table" "gpt-4" [] ∅)
             sample_started 1%N)
      = SQLDatabase (engine sample_started) ["db_table"] :: rest.
Proof.
  split; [exact sample_started_reachable |].
  exact (proj1 (pipe_table_allow_list_fixed lenient_libs
    sample_started sample_started_reachable
    "List the rows of other_table" "gpt-4" [] ∅ 1%N)).
Defined.

(** C2. [pipe] never reads [model_id] or [messages]: two requests that
    differ only there are the same program, so from the same state they
    make the same calls and end alike; and in any two worlds every LLM
    client either of them builds is bound to the one endpoint and the one
    model. *)
Theorem pipe_ignores_model_id_and_messages {W : Type} (h : handler W) self
    (Hr : reachable h self) um b mid1 ms1 mid2 ms2 w1 w2 :
  pipe um mid1 ms1 b = pipe um mid2 ms2 b /\
  run h (pipe um mid1 ms1 b) self w1 = run h (pipe um mid2 ms2 b) self w1 /\
  (forall model base_url timeout window,
     Ollama model base_url timeout window
       ∈ calls (run h (pipe um mid1 ms1 b) self w1) \/
     Ollama model base_url timeout window
       ∈ calls (run h (pipe um mid2 ms2 b) self w2) ->
     base_url = "http://host.docker.internal:11434" /\
     model = "phi3:medium-128k").
Proof.
  split; [reflexivity |]. split; [reflexivity |].
  destruct (reachable_configured h self Hr) as (Hhost & Hmodel & _ & _).
  intros m u t c [Hc | Hc].
  - pose proof (pipe_calls h um mid1 ms1 b self w1) as Hcalls. cbv zeta in Hcalls.
    destruct Hcalls as (? & ? & ? & ? & ? & Hpre & _ & _).
    eapply elem_of_prefix in Hc; [| exact Hpre]. unfold pipe_script in Hc.
    repeat (apply elem_of_cons in Hc as [Heq | Hc];
            [try discriminate Heq; injection Heq as -> -> _ _; done |]).
    by apply elem_of_nil in Hc.
  - pose proof (pipe_calls h um mid2 ms2 b self w2) as Hcalls. cbv zeta in Hcalls.
    destruct Hcalls as (? & ? & ? & ? & ? & Hpre & _ & _).
    eapply elem_of_prefix in Hc; [| exact Hpre]. unfold pipe_script in Hc.
    repeat (apply elem_of_cons in Hc as [Heq | Hc];
            [try discriminate Heq; injection Heq as -> -> _ _; done |]).
    by apply elem_of_nil in Hc.
Qed.

Lemma pipe_ignores_model_id_and_messages_witness :
  reachable lenient_libs sample_started /\
  run lenient_libs
      (pipe "How many rows?" "gpt-4" [ {[ "role" := "user" ]} ] ∅)
      sample_started 1%N
    = run lenient_libs (pipe "How many rows?" "llama3" [] ∅)
        sample_started 1%N.
Proof.
  split; [exact sample_started_reachable |].
  exact (proj1 (proj2 (pipe_ignores_model_id_and_messages lenient_libs
    sample_started sample_started_reachable "How many rows?" ∅
    "gpt-4" [ {[ "role" := "user" ]} ] "llama3" [] 1%N 2%N))).
Defined.

(** C5. Every request builds its own LLM client, and always the same one:
    model [phi3:medium-128k] at [http://host.docker.internal:11434], a
    timeout of 180 seconds and a window of 30000 tokens.  Every [Ollama]
    call of a run is that call; it is the call right after the schema
    view, made once per request; and the instance keeps no client, as
    [pipe] assigns no attribute. *)
Theorem pipe_llm_client_fixed {W : Type} (h : handler W) self
    (Hr : reachable h self) um mid ms b w :
  (forall c, c ∈ calls (run h (pipe um mid ms b) self w) ->
     is_Ollama c = true ->
     c = Ollama "phi3:medium-128k" "http://host.docker.internal:11434"
           180 30000) /\
  (forall w' db,
     h (SQLDatabase (engine self) (tables self)) w = (w', inr db) ->
     exists rest,
       calls (run h (pipe um mid ms b) self w)
         = SQLDatabase (engine self) (tables self)
             :: Ollama "phi3:medium-128k"
                  "http://host.docker.internal:11434" 180 30000
             :: rest /\
       Forall (fun c => is_Ollama c = false) rest) /\
  self_after (run h (pipe um mid ms b) self w) = self.
Proof.
  destruct (reachable_configured h self Hr) as (Hhost & Hmodel & _ & _).
  split; [| split].
  - intros c Hc Hllm.
    pose proof (pipe_calls h um mid ms b self w) as Hcalls. cbv zeta in Hcalls.
    destruct Hcalls as (? & ? & ? & ? & ? & Hpre & _ & _).
    eapply elem_of_prefix in Hc; [| exact Hpre]. unfold pipe_script in Hc.
    repeat (apply elem_of_cons in Hc as [-> | Hc];
            [try discriminate Hllm; by rewrite Hhost, Hmodel |]).
    by apply elem_of_nil in Hc.
  - intros w' db Hdb. rewrite <- Hhost, <- Hmodel.
    unfold_prog. rewrite Hdb. simpl.
    repeat answer h; eexists; (split; [reflexivity |]);
      repeat constructor.
  - apply pipe_frame.
Qed.

Lemma pipe_llm_client_fixed_witness :
  reachable lenient_libs sample_started /\
  exists rest,
    calls (run lenient_libs (pipe "How many rows?" "gpt-4" [] ∅)
             sample_started 1%N)
      = SQLDatabase (engine sample_started) (tables sample_started)
          :: Ollama "phi3:medium-128k" "http://host.docker.internal:11434"
               180 30000
          :: rest /\
    Forall (fun c => is_Ollama c = false) rest.
Proof.
  split; [exact sample_started_reachable |].
  exact (proj1 (proj2 (pipe_llm_client_fixed lenient_libs
    sample_started sample_started_reachable "How many rows?" "gpt-4" [] ∅
    1%N)) 2%N (Obj 1%N) eq_refl).
Defined.

(** ** The engine handle *)

Section Engine.
Context {W : Type} (h : handler W).

Lemma init_db_connection_run self w :
  run h init_db_connection self w =
    match h (create_engine (db_url self)) w with
    | (w', inr e) =>
        mkOutcome (set_engine (Some e) self) w'
          [create_engine (db_url self)] (inr (Some e))
    | (w', inl x) => mkOutcome self w' [create_engine (db_url self)] (inl x)
    end.
Proof. unfold_prog. by answer h. Qed.

(** No invocation closes an engine, and a request hands the schema view
    the engine the instance holds. *)
Lemma invoke_calls i self w :
  Forall (fun c =>
            match c with
            | dispose _ => False
            | SQLDatabase eng ts => eng = engine self /\ ts = tables self
            | _ => True
            end) (invoke h i self w).2.
Proof.
  destruct i as [| | | r]; unfold invoke; cbv zeta; cbn [snd].
  - rewrite init_db_connection_calls. by repeat constructor.
  - rewrite on_startup_run. cbn [calls].
    rewrite init_db_connection_calls. by repeat constructor.
  - rewrite on_shutdown_run. constructor.
  - unfold pipe_of.
    pose proof (pipe_calls h (user_message r) (model_id r) (messages r)
                  (body r) self w) as Hcalls.
    cbv zeta in Hcalls.
    destruct Hcalls as (? & ? & ? & ? & ? & Hpre & _ & _).
    apply Forall_forall. intros c Hc.
    eapply elem_of_prefix in Hc; [| exact Hpre]. unfold pipe_script in Hc.
    repeat (apply elem_of_cons in Hc as [-> | Hc]; [done |]).
    by apply elem_of_nil in Hc.
Qed.

Lemma session_serving_calls todo self w :
  forallb serving todo = true ->
  Forall (fun c =>
            match c with
            | dispose _ => False
            | SQLDatabase eng ts => eng = engine self /\ ts = tables self
            | _ => True
            end) (session h todo self w).2.
Proof.
  revert w. induction todo as [| i todo IH]; intros w; simpl; [constructor |].
  intros [Hi Htodo]%andb_prop.
  pose proof (invoke_serving h i self w Hi) as Hself.
  pose proof (invoke_calls i self w) as Hcs.
  destruct (invoke h i self w) as [[self1 w1] cs1]. simpl in Hself, Hcs.
  subst self1. specialize (IH w1 Htodo).
  destruct (session h todo self w1) as [[self2 w2] cs2]. simpl in *.
  by apply Forall_app.
Qed.

Lemma session_no_dispose todo self w :
  Forall (fun c => is_dispose c = false) (session h todo self w).2.
Proof.
  revert self w. induction todo as [| i todo IH]; intros self w; simpl;
    [constructor |].
  pose proof (invoke_calls i self w) as Hcs.
  destruct (invoke h i self w) as [[self1 w1] cs1]. simpl in Hcs.
  specialize (IH self1 w1).
  destruct (session h todo self1 w1) as [[self2 w2] cs2]. simpl in *.
  apply Forall_app. split; [| done].
  eapply Forall_impl; [exact Hcs |]. by intros [].
Qed.
End Engine.

(** C8. Once the instance is built, serving does not change it:
    [on_shutdown] makes no call, releases nothing and returns with the
    instance and the outside world as they were; every run of [pipe], also
    one that raises, leaves every attribute as it found it; and so does any
    sequence of requests and shutdown hooks. *)
Theorem serving_leaves_instance_unchanged {W : Type} (h : handler W) self w
    todo (Hserving : forallb serving todo = true) :
  run h on_shutdown self w = mkOutcome self w [] (inr tt) /\
  (forall um mid ms b w',
     self_after (run h (pipe um mid ms b) self w') = self) /\
  (session h todo self w).1.1 = self.
Proof.
  split; [apply on_shutdown_run |]. split.
  - intros. apply pipe_frame.
  - by apply session_serving.
Qed.

Lemma serving_leaves_instance_unchanged_witness :
  forallb serving [Pipe sample_request; OnShutdown; Pipe sample_request] = true /\
  (session lenient_libs [Pipe sample_request; OnShutdown; Pipe sample_request]
     sample_started 1%N).1.1 = sample_started.
Proof.
  split; [reflexivity |].
  exact (proj2 (proj2 (serving_leaves_instance_unchanged lenient_libs
    sample_started 1%N [Pipe sample_request; OnShutdown; Pipe sample_request]
    eq_refl))).
Defined.

(** C10. [init_db_connection] makes one call, [create_engine] on the URL of
    the instance.  When that returns an engine, the engine is stored in
    [self.engine] in place of whatever was there, and the method returns
    the stored attribute, which is that same engine; the engine held before
    is not disposed of.  When it raises, the attribute keeps its value. *)
Theorem init_db_connection_returns_stored_engine {W : Type} (h : handler W)
    self w :
  calls (run h init_db_connection self w) = [create_engine (db_url self)] /\
  (forall r, result (run h init_db_connection self w) = inr r ->
     r = engine (self_after (run h init_db_connection self w)) /\
     exists e w',
       h (create_engine (db_url self)) w = (w', inr e) /\ r = Some e) /\
  (forall e w', h (create_engine (db_url self)) w = (w', inr e) ->
     result (run h init_db_connection self w) = inr (Some e) /\
     self_after (run h init_db_connection self w) = set_engine (Some e) self) /\
  (forall x, result (run h init_db_connection self w) = inl x ->
     self_after (run h init_db_connection self w) = self) /\
  Forall (fun c => is_dispose c = false)
    (calls (run h init_db_connection self w)).
Proof.
  rewrite init_db_connection_run.
  destruct (h (create_engine (db_url self)) w) as [w' [x | e]] eqn:Hh; simpl.
  - split; [done |]. split; [done |]. split; [done |]. split; [done |].
    by repeat constructor.
  - split; [done |]. split; [| split; [| split]].
    + intros r [= <-]. split; [done |]. by exists e, w'.
    + by intros e' w'' [= <- <-].
    + done.
    + by repeat constructor.
Qed.

(** C7. [on_startup] makes one call: [create_engine] on the URL built from
    the five values read from the environment behind the fixed selector
    [postgresql+psycopg2].  The engine it returns is stored in the
    instance; through any sequence of requests and shutdown hooks that
    follows, the attribute still holds that engine, every schema view is
    built on it, no call disposes of it, and the next request again starts
    from it. *)
Theorem startup_engine_reused {W : Type} (h : handler W) environ self w w' e
    todo
    (Hinit : __init__ environ = inr self)
    (Hcreate : h (create_engine (db_url self)) w = (w', inr e))
    (Hserving : forallb serving todo = true) :
  (exists user password host port db,
     environ !! "PG_USER" = Some user /\
     environ !! "PG_PASSWORD" = Some password /\
     environ !! "PG_HOST" = Some host /\
     environ !! "PG_PORT" = Some port /\
     environ !! "PG_DB" = Some db /\
     calls (run h on_startup self w)
       = [create_engine ("postgresql+psycopg2://" +:+ user +:+ ":" +:+ password
                           +:+ "@" +:+ host +:+ ":" +:+ port +:+ "/" +:+ db)]) /\
  result (run h on_startup self w) = inr tt /\
  engine (self_after (run h on_startup self w)) = Some e /\
  engine (session h todo (self_after (run h on_startup self w)) w').1.1
    = Some e /\
  Forall (fun c =>
            match c with
            | dispose _ => False
            | SQLDatabase eng _ => eng = Some e
            | _ => True
            end)
    (session h todo (self_after (run h on_startup self w)) w').2 /\
  (forall um mid ms b w'',
     exists rest,
       calls (run h (pipe um mid ms b)
                (session h todo (self_after (run h on_startup self w)) w').1.1
                w'')
         = SQLDatabase (Some e) ["db_table"] :: rest).
Proof.
  apply init_inr in Hinit
    as (Hhost & Hport & Huser & Hpw & Hdb & _ & _ & _ & _ & Htables).
  rewrite on_startup_run, init_db_connection_run, Hcreate.
  cbn [self_after world_after calls result].
  rewrite (session_serving h todo _ w' Hserving).
  split; [by exists (PG_USER self), (PG_PASSWORD self), (PG_HOST self),
                    (PG_PORT self), (PG_DB self) |].
  split; [done |]. split; [done |]. split; [done |]. split.
  - eapply Forall_impl; [apply (session_serving_calls h todo _ w' Hserving) |].
    intros [] Hc; try done. by destruct Hc.
  - intros um mid ms b w''.
    pose proof (pipe_calls h um mid ms b (set_engine (Some e) self) w'')
      as Hcalls.
    cbv zeta in Hcalls. destruct Hcalls as (_ & _ & _ & _ & _ & _ & Hfirst & _).
    cbn [engine tables set_engine] in Hfirst.
    rewrite Htables in Hfirst. exact Hfirst.
Qed.

Lemma startup_engine_reused_witness :
  __init__ sample_environ = inr sample_self /\
  lenient_libs (create_engine (db_url sample_self)) 0%N = (1%N, inr (Obj 0%N)) /\
  forallb serving [Pipe sample_request; OnShutdown; Pipe sample_request] = true /\
  engine (session lenient_libs
            [Pipe sample_request; OnShutdown; Pipe sample_request]
            (self_after (run lenient_libs on_startup sample_self 0%N)) 1%N).1.1
    = Some (Obj 0%N).
Proof.
  split; [exact sample_self_init |]. split; [reflexivity |].
  split; [reflexivity |].
  exact (proj1 (proj2 (proj2 (proj2 (startup_engine_reused lenient_libs
    sample_environ sample_self 0%N 1%N (Obj 0%N)
    [Pipe sample_request; OnShutdown; Pipe sample_request]
    sample_self_init eq_refl eq_refl))))).
Defined.

(** C4. An instance that was built and has served requests or shutdown
    hooks, but for which neither [on_startup] nor [init_db_connection] ever
    ran, still has [engine = None].  [pipe] has no test of its own: its
    first act is to hand that [None] to the schema view.  With libraries
    whose schema view refuses a missing engine, the request raises that
    error after this single call, and returns no generator. *)
Theorem pipe_without_startup_fails {W : Type} (h : handler W) environ self0
    w0 todo um mid ms b w
    (Hinit : __init__ environ = inr self0)
    (Hnostart : forallb serving todo = true)
    (Hrefuse : forall ts w1, exists w2 e,
                 h (SQLDatabase None ts) w1 = (w2, inl e)) :
  engine (session h todo self0 w0).1.1 = None /\
  calls (run h (pipe um mid ms b) (session h todo self0 w0).1.1 w)
    = [SQLDatabase None ["db_table"]] /\
  (exists e,
     result (run h (pipe um mid ms b) (session h todo self0 w0).1.1 w) = inl e /\
     raised_by h (SQLDatabase None ["db_table"]) e) /\
  (forall g,
     result (run h (pipe um mid ms b) (session h todo self0 w0).1.1 w) <> inr g).
Proof.
  rewrite (session_serving h todo self0 w0 Hnostart).
  apply init_inr in Hinit as (_ & _ & _ & _ & _ & Hengine & _ & _ & _ & Htables).
  destruct (Hrefuse ["db_table"] w) as (w2 & e & Hh).
  unfold_prog. rewrite Hengine, Htables, Hh. simpl.
  split; [done |]. split; [done |]. split; [| done].
  exists e. split; [done |]. by exists w, w2.
Qed.

Lemma strict_libs_refuse (ts : list string) (w1 : N) :
  exists w2 e, strict_libs (SQLDatabase None ts) w1 = (w2, inl e).
Proof. by eexists _, _. Defined.

Lemma pipe_without_startup_fails_witness :
  __init__ sample_environ = inr sample_self /\
  forallb serving [OnShutdown] = true /\
  (forall ts w1, exists w2 e,
     strict_libs (SQLDatabase None ts) w1 = (w2, inl e)) /\
  calls (run strict_libs (pipe "How many rows?" "gpt-4" [] ∅)
           (session strict_libs [OnShutdown] sample_self 0%N).1.1 0%N)
    = [SQLDatabase None ["db_table"]].
Proof.
  split; [exact sample_self_init |]. split; [reflexivity |].
  split; [exact strict_libs_refuse |].
  exact (proj1 (proj2 (pipe_without_startup_fails strict_libs sample_environ
    sample_self 0%N [OnShutdown] "How many rows?" "gpt-4" [] ∅ 0%N
    sample_self_init eq_refl strict_libs_refuse))).
Defined.

(** [pipe] itself does not look at the engine: with libraries that accept
    anything, a request on a never-started instance runs to the end. *)
Example pipe_does_not_test_engine :
  result (run lenient_libs (pipe_of sample_request) sample_self 0%N)
    = inr (Obj 5%N).
Proof. reflexivity. Qed.

(** When the schema view raises, the request ends there: no client, no
    template and no query engine are built. *)
Example pipe_stops_at_schema_view :
  run offline_libs (pipe_of sample_request) sample_started 1%N
    = mkOutcome sample_started 1%N [SQLDatabase (Some (Obj 0%N)) ["db_table"]]
        (inl (LibraryError "OperationalError")).
Proof. reflexivity. Qed.

(** A second [init_db_connection] stores the second engine; the first is
    dropped, not disposed of. *)
Example init_db_connection_twice :
  session lenient_libs [InitDbConnection; InitDbConnection] sample_self 0%N
    = (set_engine (Some (Obj 1%N)) sample_self, 2%N,
       [create_engine (db_url sample_self); create_engine (db_url sample_self)]).
Proof. reflexivity. Qed.

(** ** Startup and the environment *)

(** C3. Each of [PG_HOST], [PG_PORT], [PG_USER], [PG_PASSWORD] and [PG_DB]
    is required: when one of them is absent from the environment,
    construction raises [KeyError] for a required variable that is absent,
    so the server's startup fails with it and there is no instance a
    request could be sent to; when all five are present, construction
    succeeds, the instance holds the five values read, and startup goes on
    to [on_startup]. *)
Theorem startup_requires_environment {W : Type} (h : handler W) environ w :
  (forall key, key ∈ required_vars -> environ !! key = None ->
     exists missing,
       missing ∈ required_vars /\ environ !! missing = None /\
       __init__ environ = inl (KeyError missing) /\
       startup h environ w = inl (KeyError missing) /\
       forall self, __init__ environ <> inr self) /\
  (forall host port user password db,
     environ !! "PG_HOST" = Some host ->
     environ !! "PG_PORT" = Some port ->
     environ !! "PG_USER" = Some user ->
     environ !! "PG_PASSWORD" = Some password ->
     environ !! "PG_DB" = Some db ->
     exists self,
       __init__ environ = inr self /\
       PG_HOST self = host /\ PG_PORT self = port /\ PG_USER self = user /\
       PG_PASSWORD self = password /\ PG_DB self = db /\
       startup h environ w = inr (run h on_startup self w)).
Proof.
  unfold startup, __init__, mbind, exn_bind, mret, exn_ret, environ_get,
    required_vars.
  split.
  - intros key Hkey Hnone.
    destruct (environ !! "PG_HOST") eqn:Hhost;
      [| exists "PG_HOST"; repeat split; try done; in_list].
    destruct (environ !! "PG_PORT") eqn:Hport;
      [| exists "PG_PORT"; repeat split; try done; in_list].
    destruct (environ !! "PG_USER") eqn:Huser;
      [| exists "PG_USER"; repeat split; try done; in_list].
    destruct (environ !! "PG_PASSWORD") eqn:Hpw;
      [| exists "PG_PASSWORD"; repeat split; try done; in_list].
    destruct (environ !! "PG_DB") eqn:Hdb;
      [| exists "PG_DB"; repeat split; try done; in_list].
    exfalso.
    repeat (apply elem_of_cons in Hkey as [-> | Hkey]; [congruence |]).
    by apply elem_of_nil in Hkey.
  - intros host port user password db -> -> -> -> ->.
    eexists. split; [reflexivity |]. by repeat split.
Qed.

Lemma startup_requires_environment_witness :
  (exists missing,
     missing ∈ required_vars /\
     delete "PG_PASSWORD" sample_environ !! missing = None /\
     __init__ (delete "PG_PASSWORD" sample_environ) = inl (KeyError missing) /\
     startup lenient_libs (delete "PG_PASSWORD" sample_environ) 0%N
       = inl (KeyError missing) /\
     forall self, __init__ (delete "PG_PASSWORD" sample_environ) <> inr self) /\
  (exists self,
     __init__ sample_environ = inr self /\
     PG_HOST self = "db.internal" /\ PG_PORT self = "5432" /\
     PG_USER self = "reader" /\ PG_PASSWORD self = "s3cret" /\
     PG_DB self = "sales" /\
     startup lenient_libs sample_environ 0%N
       = inr (run lenient_libs on_startup self 0%N)).
Proof.
  split.
  - apply (proj1 (startup_requires_environment lenient_libs
                    (delete "PG_PASSWORD" sample_environ) 0%N) "PG_PASSWORD").
    + unfold required_vars. in_list.
    + vm_compute. reflexivity.
  - apply (proj2 (startup_requires_environment lenient_libs sample_environ
                    0%N)); vm_compute; reflexivity.
Defined.

(** ** The prompt *)

Lemma prefix_true sub s :
  String.prefix sub s = true -> exists post, s = sub +:+ post.
Proof.
  revert s. induction sub as [| c sub IH]; intros s.
  - intros _. by exists s.
  - destruct s as [| c' s]; simpl; [done |].
    destruct (Ascii.ascii_dec c c') as [<- | Hne]; [| done].
    intros [post ->]%IH. by exists post.
Qed.

Lemma contains_true sub s :
  contains sub s = true -> exists pre post, s = pre +:+ sub +:+ post.
Proof.
  induction s as [| c s IH]; cbn [contains].
  - rewrite orb_false_r. intros [post ->]%prefix_true. by exists "", post.
  - intros [Hp | Hc]%orb_prop.
    + apply prefix_true in Hp as [post ->]. by exists "", post.
    + destruct (IH Hc) as (pre & post & ->). by exists (String c pre), post.
Qed.

(** C6. Every request hands [PromptTemplate] the same string, whatever its
    arguments and whatever the instance holds.  The string has three
    replacement fields, [dialect], [schema] and [query_str], and contains
    the five instructions: only the listed tables, never all the columns
    of a table, DISTINCT statements, at most 5 results unless the question
    gives a number, and column names qualified by the table name when
    needed. *)
Theorem prompt_template_fixed {W : Type} (h : handler W) self um mid ms b w :
  (forall template,
     PromptTemplate template ∈ calls (run h (pipe um mid ms b) self w) ->
     template = text_to_sql_prompt) /\
  (forall g, result (run h (pipe um mid ms b) self w) = inr g ->
     PromptTemplate text_to_sql_prompt
       ∈ calls (run h (pipe um mid ms b) self w)) /\
  template_vars text_to_sql_prompt = ["dialect"; "schema"; "query_str"] /\
  contains "Only use tables listed below." text_to_sql_prompt = true /\
  contains "Never query for all the columns from a specific table"
    text_to_sql_prompt = true /\
  contains "You should use DISTINCT statements" text_to_sql_prompt = true /\
  contains ("Unless the user specifies in the question a specific number of "
              +:+ "examples to obtain, query for at most 5 results using the "
              +:+ "LIMIT clause") text_to_sql_prompt = true /\
  contains "qualify column names with the table name when needed"
    text_to_sql_prompt = true.
Proof.
  pose proof (pipe_calls h um mid ms b self w) as Hcalls. cbv zeta in Hcalls.
  destruct Hcalls as (db & llm & t & qe & r & Hpre & _ & Hfull).
  split; [| split].
  - intros template Hc. eapply elem_of_prefix in Hc; [| exact Hpre].
    unfold pipe_script in Hc.
    repeat (apply elem_of_cons in Hc as [Heq | Hc];
            [try discriminate Heq; by injection Heq |]).
    by apply elem_of_nil in Hc.
  - intros g Hg. rewrite (Hfull g Hg). unfold pipe_script.
    do 2 apply list_elem_of_further. apply list_elem_of_here.
  - repeat split; vm_compute; reflexivity.
Qed.

(** ** The empty question *)

(** C9, as amended.  [pipe] never looks into [user_message] and fills no
    field of the prompt itself.  Whenever the libraries build the schema
    view, the client, the template and the query engine, a request goes on
    to [query] with the question it was given, the empty string included:
    the first four calls are the same for every question, the string
    handed to [PromptTemplate] is the fixed literal, whose [dialect],
    [schema] and [query_str] fields are all still open for the engine to
    fill, and the fifth call is [query] on the engine just built.  For the
    empty question an exception can only be one that [query] or the read
    of [response_gen] raised, and the generator the response carries is
    returned as it is. *)
Theorem pipe_empty_message_delegates {W : Type} (h : handler W) self mid ms b
    w w1 w2 w3 w4 db llm t qe
    (Hdb : h (SQLDatabase (engine self) (tables self)) w = (w1, inr db))
    (Hllm : h (Ollama (model self) (ollama_host self) 180 30000) w1
              = (w2, inr llm))
    (Ht : h (PromptTemplate text_to_sql_prompt) w2 = (w3, inr t))
    (Hqe : h (NLSQLTableQueryEngine db (tables self) llm "local" t true) w3
             = (w4, inr qe)) :
  (forall um, exists rest,
     calls (run h (pipe um mid ms b) self w)
       = SQLDatabase (engine self) (tables self)
           :: Ollama (model self) (ollama_host self) 180 30000
           :: PromptTemplate text_to_sql_prompt
           :: NLSQLTableQueryEngine db (tables self) llm "local" t true
           :: query qe um
           :: rest) /\
  (forall e, result (run h (pipe "" mid ms b) self w) = inl e ->
     raised_by h (query qe "") e \/
     exists r, raised_by h (response_gen r) e) /\
  (forall w5 r w6 g,
     h (query qe "") w4 = (w5, inr r) ->
     h (response_gen r) w5 = (w6, inr g) ->
     run h (pipe "" mid ms b) self w
       = mkOutcome self w6 (pipe_script self "" db llm t qe r) (inr g)) /\
  "dialect" ∈ template_vars text_to_sql_prompt /\
  "schema" ∈ template_vars text_to_sql_prompt /\
  "query_str" ∈ template_vars text_to_sql_prompt.
Proof.
  split; [| split; [| split]].
  - intros um. unfold_prog. rewrite Hdb. simpl. rewrite Hllm. simpl.
    rewrite Ht. simpl. rewrite Hqe. simpl.
    repeat answer h; by eexists.
  - intros e. unfold_prog. rewrite Hdb. simpl. rewrite Hllm. simpl.
    rewrite Ht. simpl. rewrite Hqe. simpl.
    destruct (h (query qe "") w4) as [w5 [e' | r]] eqn:Hq; simpl.
    + intros [= ->]. left. by exists w4, w5.
    + destruct (h (response_gen r) w5) as [w6 [e' | g]] eqn:Hg; simpl.
      * intros [= ->]. right. exists r. by exists w5, w6.
      * discriminate.
  - intros w5 r w6 g Hq Hg. unfold_prog. rewrite Hdb. simpl. rewrite Hllm.
    simpl. rewrite Ht. simpl. rewrite Hqe. simpl. rewrite Hq. simpl.
    rewrite Hg. reflexivity.
  - repeat split; vm_compute; in_list.
Qed.

Lemma pipe_empty_message_delegates_witness :
  lenient_libs (SQLDatabase (engine sample_started) (tables sample_started))
      1%N = (2%N, inr (Obj 1%N)) /\
  lenient_libs (Ollama (model sample_started) (ollama_host sample_started)
                  180 30000) 2%N = (3%N, inr (Obj 2%N)) /\
  lenient_libs (PromptTemplate text_to_sql_prompt) 3%N
    = (4%N, inr (Obj 3%N)) /\
  lenient_libs (NLSQLTableQueryEngine (Obj 1%N) (tables sample_started)
                  (Obj 2%N) "local" (Obj 3%N) true) 4%N
    = (5%N, inr (Obj 4%N)) /\
  run lenient_libs (pipe "" "gpt-4" [] ∅) sample_started 1%N
    = mkOutcome sample_started 7%N
        (pipe_script sample_started "" (Obj 1%N) (Obj 2%N) (Obj 3%N) (Obj 4%N)
           (Obj 5%N))
        (inr (Obj 6%N)).
Proof.
  do 4 (split; [reflexivity |]).
  exact (proj1 (proj2 (proj2 (pipe_empty_message_delegates lenient_libs
    sample_started "gpt-4" [] ∅ 1%N 2%N 3%N 4%N 5%N
    (Obj 1%N) (Obj 2%N) (Obj 3%N) (Obj 4%N)
    eq_refl eq_refl eq_refl eq_refl)))
    6%N (Obj 5%N) 7%N (Obj 6%N) eq_refl eq_refl).
Defined.

(** C9 as first stated has the template built with dialect and schema
    substituted.  It is not: for the empty question, as for any other, the
    one string [pipe] hands to [PromptTemplate] is the literal itself, in
    which both fields are still open; substituting them is left to the
    query engine. *)
Lemma pipe_empty_message_template_unfilled :
  calls (run lenient_libs (pipe "" "gpt-4" [] ∅) sample_started 1%N) !! 2
    = Some (PromptTemplate text_to_sql_prompt) /\
  ~ (forall template,
       PromptTemplate template
         ∈ calls (run lenient_libs (pipe "" "gpt-4" [] ∅) sample_started 1%N) ->
       ("dialect" ∉ template_vars template) /\
       ("schema" ∉ template_vars template)).
Proof.
  split; [reflexivity |].
  intros Hfilled.
  destruct (Hfilled text_to_sql_prompt) as [Hdialect _].
  - do 2 apply list_elem_of_further. apply list_elem_of_here.
  - apply Hdialect. vm_compute. in_list.
Qed.

(** * Further properties of the methods *)

(** ** Construction and the environment *)

(** [__init__] subscripts the five variables in source order and stops at
    the first one that is absent: it raises exactly when some required
    variable is absent, and the exception is [KeyError] for the first such
    variable, every variable before it being present.  It raises nothing
    else. *)
Theorem init_raises_first_missing environ e :
  __init__ environ = inl e <->
  exists before key after,
    required_vars = (before ++ key :: after)%list /\
    Forall (fun k => is_Some (environ !! k)) before /\
    absent environ key /\
    e = KeyError key.
Proof.
  unfold __init__, mbind, exn_bind, mret, exn_ret, environ_get, absent,
    required_vars.
  split.
  - destruct (environ !! "PG_HOST") eqn:Hhost;
      [| intros [= <-]; by exists [], "PG_HOST", ["PG_PORT"; "PG_USER"; "PG_PASSWORD"; "PG_DB"]].
    destruct (environ !! "PG_PORT") eqn:Hport;
      [| intros [= <-];
         exists ["PG_HOST"], "PG_PORT", ["PG_USER"; "PG_PASSWORD"; "PG_DB"];
         repeat split; try done; repeat constructor; by rewrite ?Hhost].
    destruct (environ !! "PG_USER") eqn:Huser;
      [| intros [= <-];
         exists ["PG_HOST"; "PG_PORT"], "PG_USER", ["PG_PASSWORD"; "PG_DB"];
         repeat split; try done; repeat constructor; by rewrite ?Hhost, ?Hport].
    destruct (environ !! "PG_PASSWORD") eqn:Hpw;
      [| intros [= <-];
         exists ["PG_HOST"; "PG_PORT"; "PG_USER"], "PG_PASSWORD", ["PG_DB"];
         repeat split; try done; repeat constructor;
         by rewrite ?Hhost, ?Hport, ?Huser].
    destruct (environ !! "PG_DB") eqn:Hdb;
      [done
      | intros [= <-];
        exists ["PG_HOST"; "PG_PORT"; "PG_USER"; "PG_PASSWORD"], "PG_DB", [];
        repeat split; try done; repeat constructor;
        by rewrite ?Hhost, ?Hport, ?Huser, ?Hpw].
  - intros (before & key & after & Hsplit & Hbefore & Hkey & ->).
    destruct before as [| k1 before]; simplify_eq/=; [by rewrite Hkey |].
    apply Forall_cons in Hbefore as [[? ->] Hbefore].
    destruct before as [| k2 before]; simplify_eq/=; [by rewrite Hkey |].
    apply Forall_cons in Hbefore as [[? ->] Hbefore].
    destruct before as [| k3 before]; simplify_eq/=; [by rewrite Hkey |].
    apply Forall_cons in Hbefore as [[? ->] Hbefore].
    destruct before as [| k4 before]; simplify_eq/=; [by rewrite Hkey |].
    apply Forall_cons in Hbefore as [[? ->] Hbefore].
    destruct before as [| k5 before]; simplify_eq/=; [by rewrite Hkey |].
    by destruct before.
Qed.

(** [__init__] reads the five variables and nothing else: environments
    that agree on them give the same instance, or the same exception. *)
Theorem init_reads_only_required_vars environ1 environ2
    (Hagree : forall key, key ∈ required_vars ->
                environ1 !! key = environ2 !! key) :
  __init__ environ1 = __init__ environ2.
Proof.
  unfold __init__, mbind, exn_bind, mret, exn_ret, environ_get.
  rewrite !Hagree by (unfold required_vars; in_list). done.
Qed.

Lemma crowded_environ_agrees key :
  key ∈ required_vars -> crowded_environ !! key = sample_environ !! key.
Proof.
  unfold required_vars, crowded_environ. intros Hkey.
  repeat (apply elem_of_cons in Hkey as [-> | Hkey]; [by vm_compute |]).
  by apply elem_of_nil in Hkey.
Defined.

Lemma init_reads_only_required_vars_witness :
  (forall key, key ∈ required_vars ->
     crowded_environ !! key = sample_environ !! key) /\
  __init__ crowded_environ = __init__ sample_environ.
Proof.
  split; [exact crowded_environ_agrees |].
  exact (init_reads_only_required_vars crowded_environ sample_environ
           crowded_environ_agrees).
Defined.

(** ** The connection URL *)

Lemma str_app_assoc (a b c : string) : (a +:+ b) +:+ c = a +:+ (b +:+ c).
Proof.
  induction a as [| x a IH]; [done |].
  change (String x ((a +:+ b) +:+ c) = String x (a +:+ (b +:+ c))).
  by rewrite IH.
Qed.

(** A string is cut in one way only at the first occurrence of [c]. *)
Lemma cut_at_first c (a a' b b' : string) :
  has_char c a = false -> has_char c a' = false ->
  a +:+ String c b = a' +:+ String c b' -> a = a' /\ b = b'.
Proof.
  revert a'. induction a as [| x a IH]; intros [| x' a']; simpl.
  - by intros _ _ [= ->].
  - intros _ [Hx _]%orb_false_elim [= <- _]. by rewrite Ascii.eqb_refl in Hx.
  - intros [Hx _]%orb_false_elim _ [= -> _]. by rewrite Ascii.eqb_refl in Hx.
  - intros [_ Ha]%orb_false_elim [_ Ha']%orb_false_elim [= -> Heq].
    destruct (IH a' Ha Ha' Heq) as [-> ->]. done.
Qed.

(** For delimiter-free values the URL tells the five values apart: two
    instances with the same URL have the same user, password, host, port
    and database name. *)
Theorem db_url_injective self1 self2
    (Hfree1 : delimiter_free self1) (Hfree2 : delimiter_free self2)
    (Hurl : db_url self1 = db_url self2) :
  PG_USER self1 = PG_USER self2 /\
  PG_PASSWORD self1 = PG_PASSWORD self2 /\
  PG_HOST self1 = PG_HOST self2 /\
  PG_PORT self1 = PG_PORT self2 /\
  PG_DB self1 = PG_DB self2.
Proof.
  destruct Hfree1 as (Hu1 & Hp1 & Hh1 & Hn1).
  destruct Hfree2 as (Hu2 & Hp2 & Hh2 & Hn2).
  unfold db_url in Hurl. apply String.app_inj in Hurl.
  apply (cut_at_first ":") in Hurl as [Huser Hurl]; [| done..].
  apply (cut_at_first "@") in Hurl as [Hpw Hurl]; [| done..].
  apply (cut_at_first ":") in Hurl as [Hhost Hurl]; [| done..].
  apply (cut_at_first "/") in Hurl as [Hport Hdb]; [| done..].
  done.
Qed.

Lemma sample_self_delimiter_free : delimiter_free sample_self.
Proof. by vm_compute. Defined.

Lemma db_url_injective_witness :
  delimiter_free sample_self /\
  delimiter_free (set_engine (Some (Obj 3%N)) sample_self) /\
  db_url sample_self = db_url (set_engine (Some (Obj 3%N)) sample_self) /\
  PG_PASSWORD sample_self
    = PG_PASSWORD (set_engine (Some (Obj 3%N)) sample_self).
Proof.
  split; [exact sample_self_delimiter_free |].
  split; [exact sample_self_delimiter_free |].
  split; [reflexivity |].
  exact (proj1 (proj2 (db_url_injective sample_self
    (set_engine (Some (Obj 3%N)) sample_self)
    sample_self_delimiter_free sample_self_delimiter_free eq_refl))).
Defined.

(** The URL quotes nothing, so a delimiter inside a value moves the cut:
    a colon in the user name reads as the start of the password, and an
    at-sign in the password as the start of the host.  Instances that
    differ this way get the same URL, hence the same [create_engine]
    call. *)
Theorem db_url_does_not_quote host port user password db rest
    (self : Pipeline) :
  db_url (mkPipeline host port (user +:+ ":" +:+ rest) password db
            (ollama_host self) (model self) (engine self)
            (nlsql_response self) (tables self))
    = db_url (mkPipeline host port user (rest +:+ ":" +:+ password) db
                (ollama_host self) (model self) (engine self)
                (nlsql_response self) (tables self)) /\
  db_url (mkPipeline host port user (password +:+ "@" +:+ rest) db
            (ollama_host self) (model self) (engine self)
            (nlsql_response self) (tables self))
    = db_url (mkPipeline (rest +:+ "@" +:+ host) port user password db
                (ollama_host self) (model self) (engine self)
                (nlsql_response self) (tables self)).
Proof.
  unfold db_url. cbn [PG_USER PG_PASSWORD PG_HOST PG_PORT PG_DB].
  by rewrite !str_app_assoc.
Qed.

(** ** Sessions *)

Section Sessions.
Context {W : Type} (h : handler W).

Lemma configured_call_frame self self' c :
  set_engine None self' = set_engine None self ->
  configured_call self c -> configured_call self' c.
Proof.
  destruct self, self'. intros [= -> -> -> -> -> -> -> -> ->].
  by destruct c.
Qed.

Lemma invoke_configured_calls i self w :
  Forall (configured_call self) (invoke h i self w).2.
Proof.
  destruct i as [| | | r]; unfold invoke; cbv zeta; cbn [snd].
  - rewrite init_db_connection_calls. by repeat constructor.
  - rewrite on_startup_run. cbn [calls].
    rewrite init_db_connection_calls. by repeat constructor.
  - rewrite on_shutdown_run. constructor.
  - unfold pipe_of.
    pose proof (pipe_calls h (user_message r) (model_id r) (messages r)
                  (body r) self w) as Hcalls.
    cbv zeta in Hcalls.
    destruct Hcalls as (? & ? & ? & ? & ? & Hpre & _ & _).
    apply Forall_forall. intros c Hc.
    eapply elem_of_prefix in Hc; [| exact Hpre]. unfold pipe_script in Hc.
    repeat (apply elem_of_cons in Hc as [-> | Hc]; [done |]).
    by apply elem_of_nil in Hc.
Qed.
End Sessions.

(** Whatever the order of invocations, no method assigns an attribute
    other than [engine], and every call into the libraries takes its
    configuration from the attributes the session started with: each
    engine is created from the same URL, each schema view and query engine
    gets the same table list, each client the same model and endpoint; no
    call disposes of an engine. *)
Theorem session_keeps_configuration {W : Type} (h : handler W) todo self w :
  set_engine None (session h todo self w).1.1 = set_engine None self /\
  Forall (configured_call self) (session h todo self w).2.
Proof.
  revert self w. induction todo as [| i todo IH]; intros self w; simpl.
  - split; [done | constructor].
  - pose proof (invoke_frame h i self w) as Hframe.
    pose proof (invoke_configured_calls h i self w) as Hcalls.
    destruct (invoke h i self w) as [[self1 w1] cs1]. simpl in Hframe, Hcalls.
    destruct (IH self1 w1) as [Hframe2 Hcalls2].
    destruct (session h todo self1 w1) as [[self2 w2] cs2]. simpl in *.
    split; [congruence |].
    apply Forall_app. split; [done |].
    eapply Forall_impl; [exact Hcalls2 |].
    intros c. by apply configured_call_frame.
Qed.

(** ** Requests *)


(** [pipe] reads [engine], [tables], [model] and [ollama_host], and of its
    arguments only [user_message].  Instances that agree on the four
    attributes, whatever their credentials, and requests that agree on the
    question make the same calls, move the outside world alike and end
    with the same value or exception: the database password and the
    request's [model_id], [messages] and [body] reach no library call. *)
Theorem pipe_reads_four_attributes {W : Type} (h : handler W) self1 self2
    um mid1 ms1 b1 mid2 ms2 b2 w
    (Hengine : engine self1 = engine self2)
    (Htables : tables self1 = tables self2)
    (Hmodel : model self1 = model self2)
    (Hhost : ollama_host self1 = ollama_host self2) :
  calls (run h (pipe um mid1 ms1 b1) self1 w)
    = calls (run h (pipe um mid2 ms2 b2) self2 w) /\
  result (run h (pipe um mid1 ms1 b1) self1 w)
    = result (run h (pipe um mid2 ms2 b2) self2 w) /\
  world_after (run h (pipe um mid1 ms1 b1) self1 w)
    = world_after (run h (pipe um mid2 ms2 b2) self2 w).
Proof.
  unfold_prog. rewrite Hengine, Htables, Hmodel, Hhost.
  repeat answer h; done.
Qed.

Lemma pipe_reads_four_attributes_witness :
  engine sample_self
    = engine (mkPipeline "10.0.0.7" "6432" "admin" "hunter2" "hr"
                (ollama_host sample_self) (model sample_self) None "stale"
                (tables sample_self)) /\
  result (run lenient_libs (pipe "How many rows?" "gpt-4" [] ∅) sample_self 0%N)
    = result (run lenient_libs
                (pipe "How many rows?" "llama3" [ {[ "role" := "user" ]} ]
                   {[ "stream" := "true" ]})
                (mkPipeline "10.0.0.7" "6432" "admin" "hunter2" "hr"
                   (ollama_host sample_self) (model sample_self) None "stale"
                   (tables sample_self)) 0%N).
Proof.
  split; [reflexivity |].
  exact (proj1 (proj2 (pipe_reads_four_attributes lenient_libs sample_self
    (mkPipeline "10.0.0.7" "6432" "admin" "hunter2" "hr"
       (ollama_host sample_self) (model sample_self) None "stale"
       (tables sample_self))
    "How many rows?" "gpt-4" [] ∅ "llama3" [ {[ "role" := "user" ]} ]
    {[ "stream" := "true" ]} 0%N eq_refl eq_refl eq_refl eq_refl))).
Defined.

(** A request returns exactly when each of its six calls returned, every
    call being made on the objects the calls before it handed back: the
    query engine is built from this request's schema view, client and
    template, the question goes to [query] as it came, and the value
    returned is the generator read off that response.  Such a run leaves
    the instance as it was and has made the six calls of the script. *)
Theorem pipe_returns_library_generator {W : Type} (h : handler W) um mid ms b
    self w g :
  (result (run h (pipe um mid ms b) self w) = inr g <->
   exists w1 db w2 llm w3 t w4 qe w5 r w6,
     h (SQLDatabase (engine self) (tables self)) w = (w1, inr db) /\
     h (Ollama (model self) (ollama_host self) 180 30000) w1 = (w2, inr llm) /\
     h (PromptTemplate text_to_sql_prompt) w2 = (w3, inr t) /\
     h (NLSQLTableQueryEngine db (tables self) llm "local" t true) w3
       = (w4, inr qe) /\
     h (query qe um) w4 = (w5, inr r) /\
     h (response_gen r) w5 = (w6, inr g)) /\
  (forall w1 db w2 llm w3 t w4 qe w5 r w6,
     h (SQLDatabase (engine self) (tables self)) w = (w1, inr db) ->
     h (Ollama (model self) (ollama_host self) 180 30000) w1 = (w2, inr llm) ->
     h (PromptTemplate text_to_sql_prompt) w2 = (w3, inr t) ->
     h (NLSQLTableQueryEngine db (tables self) llm "local" t true) w3
       = (w4, inr qe) ->
     h (query qe um) w4 = (w5, inr r) ->
     h (response_gen r) w5 = (w6, inr g) ->
     run h (pipe um mid ms b) self w
       = mkOutcome self w6 (pipe_script self um db llm t qe r) (inr g)).
Proof.
  assert (forall w1 db w2 llm w3 t w4 qe w5 r w6,
     h (SQLDatabase (engine self) (tables self)) w = (w1, inr db) ->
     h (Ollama (model self) (ollama_host self) 180 30000) w1 = (w2, inr llm) ->
     h (PromptTemplate text_to_sql_prompt) w2 = (w3, inr t) ->
     h (NLSQLTableQueryEngine db (tables self) llm "local" t true) w3
       = (w4, inr qe) ->
     h (query qe um) w4 = (w5, inr r) ->
     h (response_gen r) w5 = (w6, inr g) ->
     run h (pipe um mid ms b) self w
       = mkOutcome self w6 (pipe_script self um db llm t qe r) (inr g))
    as Hchain.
  { intros w1 db w2 llm w3 t w4 qe w5 r w6 H1 H2 H3 H4 H5 H6.
    unfold_prog. rewrite H1. simpl. rewrite H2. simpl. rewrite H3. simpl.
    rewrite H4. simpl. rewrite H5. simpl. rewrite H6. reflexivity. }
  split; [split |].
  - unfold_prog.
    destruct (h (SQLDatabase (engine self) (tables self)) w)
      as [w1 [e | db]] eqn:H1; simpl; [done |].
    destruct (h (Ollama (model self) (ollama_host self) 180 30000) w1)
      as [w2 [e | llm]] eqn:H2; simpl; [done |].
    destruct (h (PromptTemplate text_to_sql_prompt) w2)
      as [w3 [e | t]] eqn:H3; simpl; [done |].
    destruct (h (NLSQLTableQueryEngine db (tables self) llm "local" t true) w3)
      as [w4 [e | qe]] eqn:H4; simpl; [done |].
    destruct (h (query qe um) w4) as [w5 [e | r]] eqn:H5; simpl; [done |].
    destruct (h (response_gen r) w5) as [w6 [e | g']] eqn:H6; simpl; [done |].
    intros [= <-]. by exists w1, db, w2, llm, w3, t, w4, qe, w5, r, w6.
  - intros (w1 & db & w2 & llm & w3 & t & w4 & qe & w5 & r & w6 & H1 & H2 & H3
            & H4 & H5 & H6).
    by rewrite (Hchain _ _ _ _ _ _ _ _ _ _ _ H1 H2 H3 H4 H5 H6).
  - exact Hchain.
Qed.

(** ** A startup that fails *)

(** When [create_engine] raises, [on_startup] raises the same exception
    and assigns nothing; nothing records the failure.  On a fresh instance
    the engine is still [None], and a request sent afterwards goes ahead
    and hands that [None] to the schema view. *)
Theorem failed_startup_leaves_no_engine {W : Type} (h : handler W) environ
    self w w' x
    (Hinit : __init__ environ = inr self)
    (Hraise : h (create_engine (db_url self)) w = (w', inl x)) :
  run h on_startup self w
    = mkOutcome self w' [create_engine (db_url self)] (inl x) /\
  engine (self_after (run h on_startup self w)) = None /\
  (forall um mid ms b w'',
     exists rest,
       calls (run h (pipe um mid ms b) (self_after (run h on_startup self w))
                w'')
         = SQLDatabase None ["db_table"] :: rest).
Proof.
  apply init_inr in Hinit as (_ & _ & _ & _ & _ & Hengine & _ & _ & _ & Htables).
  rewrite on_startup_run, init_db_connection_run, Hraise.
  cbn [self_after world_after calls result].
  split; [done |]. split; [done |].
  intros um mid ms b w''.
  pose proof (pipe_calls h um mid ms b self w'') as Hcalls.
  cbv zeta in Hcalls. destruct Hcalls as (_ & _ & _ & _ & _ & _ & Hfirst & _).
  by rewrite Hengine, Htables in Hfirst.
Qed.

Lemma failed_startup_leaves_no_engine_witness :
  __init__ sample_environ = inr sample_self /\
  no_driver_libs (create_engine (db_url sample_self)) 0%N
    = (0%N, inl (LibraryError "NoSuchModuleError")) /\
  run no_driver_libs on_startup sample_self 0%N
    = mkOutcome sample_self 0%N [create_engine (db_url sample_self)]
        (inl (LibraryError "NoSuchModuleError")).
Proof.
  split; [exact sample_self_init |]. split; [reflexivity |].
  exact (proj1 (failed_startup_leaves_no_engine no_driver_libs sample_environ
    sample_self 0%N 0%N (LibraryError "NoSuchModuleError")
    sample_self_init eq_refl)).
Defined.
